(** * cobcide main window: a shallow embedding of [cobcide/window.py]

    The controller is Python 2 / PySide code.  A Python [str] is a byte
    string, modelled by [string] (a sequence of 8-bit characters); the
    text of a Qt item is a [unicode] object, modelled by [Unicode.text];
    the widgets the controller reads and writes are fields of a record that is
    threaded through every handler, together with a small exception monad.

    Everything the controller calls but does not define (the operating
    system, chardet, Qt, pcef, the tab manager) is collected in the record
    [World] and stays a parameter of every definition and theorem. *)

From Stdlib Require Import String Ascii ZArith List Bool Lia.
From stdpp Require Import base list strings.
Import ListNotations.
Open Scope string_scope.

(** ** Python strings *)

Module Str.

(** [str.upper] on a byte string in the C locale: a..z are shifted,
    every other byte is kept. *)
Definition upper_char (c : ascii) : ascii :=
  let n := nat_of_ascii c in
  if (97 <=? n)%nat && (n <=? 122)%nat then ascii_of_nat (n - 32) else c.

Fixpoint upper (s : string) : string :=
  match s with
  | EmptyString => EmptyString
  | String c t => String (upper_char c) (upper t)
  end.

(** [needle in hay] *)
Fixpoint contains (needle hay : string) : bool :=
  String.prefix needle hay ||
  match hay with
  | EmptyString => false
  | String _ t => contains needle t
  end.

(** [file.readlines()]: the content cut after every newline, the
    newline staying at the end of its line. *)
Fixpoint readlines (s : string) : list string :=
  match s with
  | EmptyString => []
  | String c t =>
      if Ascii.eqb c "010" then String c EmptyString :: readlines t
      else match readlines t with
           | [] => [String c EmptyString]
           | l :: ls => String c l :: ls
           end
  end.

End Str.

(** ** Qt's [QFileInfo] *)

Module QFileInfo.

(** What follows the last [c] in [s]; [None] when [c] does not occur. *)
Fixpoint after_last (c : ascii) (s : string) : option string :=
  match s with
  | EmptyString => None
  | String a t =>
      match after_last c t with
      | Some r => Some r
      | None => if Ascii.eqb a c then Some t else None
      end
  end.

(** The name of the file, without its directory. *)
Definition fileName (path : string) : string :=
  match after_last "/" path with Some r => r | None => path end.

(** [QFileInfo(path).suffix()]: all characters of the file name after,
    and not including, its last dot; empty without a dot. *)
Definition suffix (path : string) : string :=
  match after_last "." (fileName path) with Some r => r | None => "" end.

End QFileInfo.

(** ** Unicode strings *)

(** What a Qt widget hands out as text is a Python [unicode] object: a
    sequence of code points. *)
Module Unicode.

Definition text : Type := list N.

(** The [unicode] object of a literal written in Latin-1. *)
Definition of_string (s : string) : text :=
  map N_of_ascii (list_ascii_of_string s).

Definition colon : N := 58.

(** [s.split(sep)] for a one-character separator; never empty. *)
Fixpoint split (sep : N) (s : text) : list text :=
  match s with
  | [] => [[]]
  | c :: t =>
      if N.eqb c sep then [] :: split sep t
      else match split sep t with
           | [] => [[c]]
           | h :: r => (c :: h) :: r
           end
  end.

End Unicode.

(** ** Data model *)

(** Modelled from the spec: the classification [cobcide.FileType] (the
    package's [__init__] is not part of the sources). *)
Inductive FileType := Text | Program | Subprogram.

#[global] Instance FileType_eq_dec : EqDecision FileType.
Proof. solve_decision. Defined.

(** Python exceptions that the controller raises or catches. *)
Inductive exn :=
| IOError | OSError | ValueError | UnicodeDecodeError | UnicodeEncodeError
| AttributeError | Exception.

#[global] Instance exn_eq_dec : EqDecision exn.
Proof. solve_decision. Defined.

(** [isinstance(e, cls)] on the classes above: every class derives from
    Exception, the two Unicode errors derive from ValueError, and IOError
    and OSError are siblings. *)
Definition isinstance_exn (e cls : exn) : bool :=
  match cls, e with
  | Exception, _ => true
  | ValueError, (ValueError | UnicodeDecodeError | UnicodeEncodeError) => true
  | _, _ => bool_decide (e = cls)
  end.

(** [a or b] on two class objects: a class is truthy, so the value is the
    first operand. *)
Definition py_or (a b : exn) : exn := a.

Inductive outcome (A : Type) :=
| Return (a : A)
| Raise (e : exn).
Arguments Return {A} a.
Arguments Raise {A} e.

(** A text cursor of an editor, as Qt hands it out. *)
Definition Cursor := nat.

(** An editor tab: [CobolEditor] or a plain text editor. *)
Record Tab := {
  tagFilename : string;
  fileType : FileType;
  tagEncoding : string;
  isCobolEditor : bool;          (* isinstance(tab, CobolEditor) *)
  errors_manager : bool;         (* an ErrorsManager is attached *)
  textCursor : Cursor
}.

Inductive Page := PAGE_HOME | PAGE_EDITOR.

#[global] Instance Page_eq_dec : EqDecision Page.
Proof. solve_decision. Defined.

Record Action := { enabled : bool; checked : bool }.

Record Toolbar := {
  actionSave_as : Action;
  actionSave : Action;
  actionCompile : Action;
  actionRun : Action;
  actionProgram : Action;
  actionSubprogram : Action
}.

Inductive DialogKind := Critical | Warning.

(** A modal [QMessageBox]. *)
Record Dialog := { kind : DialogKind; title : string; text : string }.

(** [cobol.Runner(filename)] *)
Record Runner := { runner_filename : string }.

(** [QThreadPool] as the controller uses it: its capacity and the runners
    handed to [start] that have not finished, oldest first. *)
Record ThreadPool := { maxThreadCount : nat; runners : list Runner }.

(** Modelled from the spec: the tab manager ([cobcide.tab_manager] is not
    part of the sources).  It owns the open editors and tracks the active
    one. *)
Record TabManager := { tabs : list Tab; current : nat }.

(** The main window: the widgets of [self.__ui] that the handlers below
    touch, the collaborators the window owns, the persisted setting, and
    what the user and the file system have seen so far. *)
Record Window := {
  stackedWidget : Page;                 (* currentIndex *)
  toolbar : Toolbar;
  mnuActiveEditor : bool;               (* enabled *)
  dockWidgetNavPanel : bool;            (* visible *)
  dockWidgetLogs : bool;                (* visible *)
  tabWidgetLogs : nat;                  (* currentIndex *)
  plainTextEditOutput : list string;
  windowTitle : string;
  recentFile : option string;           (* wHomePage.setCurrentFile *)
  tab_manager : TabManager;
  threadPool : ThreadPool;
  last_used_path : string;              (* Settings().last_used_path *)
  dialogs : list Dialog;                (* message boxes shown, oldest first *)
  opened : list string;                 (* paths given to open(), oldest first *)
  compiled : list (string * option FileType)
                                        (* calls of cobol.compile, oldest first *)
}.

(** The environment the controller runs in. *)
Record World := {
  os_path_exists : string -> bool;
  os_path_normpath : string -> string;
  os_path_dirname : string -> string;
  (** [open(path, 'r')] followed by reading: the content, or IOError *)
  read_file : string -> option string;
  (** [chardet.detect(data)['encoding']]: a name, Python's None, or an
      exception *)
  chardet_encoding : string -> outcome (option string);
  sys_getfilesystemencoding : string;
  (** truth value of a [FileType] constant (their values are not part of
      the sources) *)
  filetype_truthy : FileType -> bool;
  (** Modelled from the spec: [TabManager.open_tab(path, type, encoding)]
      either fails to decode the file, or builds an editor, which is a
      [CobolEditor] or not. *)
  open_tab_editor : string -> FileType -> string -> option bool;
  (** [pcef.code_edit.cursorForPosition(codeEdit, line, column)] *)
  cursorForPosition : Tab -> Z -> Z -> Cursor;
  (** the built-in [int(text)] on a [unicode] object, whatever digits and
      spaces of Unicode it accepts: the number read, or None when it
      raises ValueError *)
  builtin_int : Unicode.text -> option Z;
  (** [pcef.saveFileFromEditor(editor, encoding=...)] *)
  saveFileFromEditor : Tab -> string -> outcome unit;
  (** [cobol.compile(filename, type)]: the errors and the name of the
      output file; the type is what [active_tab_type] holds *)
  cobol_compile : string -> option FileType -> outcome (list string * string)
}.

(** ** Field updates *)

Section Setters.

Variable s : Window.

Definition set_stackedWidget (v : Page) : Window :=
  {|
    stackedWidget := v; toolbar := toolbar s;
    mnuActiveEditor := mnuActiveEditor s;
    dockWidgetNavPanel := dockWidgetNavPanel s;
    dockWidgetLogs := dockWidgetLogs s; tabWidgetLogs := tabWidgetLogs s;
    plainTextEditOutput := plainTextEditOutput s;
    windowTitle := windowTitle s; recentFile := recentFile s;
    tab_manager := tab_manager s; threadPool := threadPool s;
    last_used_path := last_used_path s; dialogs := dialogs s;
    opened := opened s; compiled := compiled s
  |}.

Definition set_toolbar (v : Toolbar) : Window :=
  {|
    stackedWidget := stackedWidget s; toolbar := v;
    mnuActiveEditor := mnuActiveEditor s;
    dockWidgetNavPanel := dockWidgetNavPanel s;
    dockWidgetLogs := dockWidgetLogs s; tabWidgetLogs := tabWidgetLogs s;
    plainTextEditOutput := plainTextEditOutput s;
    windowTitle := windowTitle s; recentFile := recentFile s;
    tab_manager := tab_manager s; threadPool := threadPool s;
    last_used_path := last_used_path s; dialogs := dialogs s;
    opened := opened s; compiled := compiled s
  |}.

Definition set_mnuActiveEditor (v : bool) : Window :=
  {|
    stackedWidget := stackedWidget s; toolbar := toolbar s;
    mnuActiveEditor := v; dockWidgetNavPanel := dockWidgetNavPanel s;
    dockWidgetLogs := dockWidgetLogs s; tabWidgetLogs := tabWidgetLogs s;
    plainTextEditOutput := plainTextEditOutput s;
    windowTitle := windowTitle s; recentFile := recentFile s;
    tab_manager := tab_manager s; threadPool := threadPool s;
    last_used_path := last_used_path s; dialogs := dialogs s;
    opened := opened s; compiled := compiled s
  |}.

Definition set_dockWidgetNavPanel (v : bool) : Window :=
  {|
    stackedWidget := stackedWidget s; toolbar := toolbar s;
    mnuActiveEditor := mnuActiveEditor s; dockWidgetNavPanel := v;
    dockWidgetLogs := dockWidgetLogs s; tabWidgetLogs := tabWidgetLogs s;
    plainTextEditOutput := plainTextEditOutput s;
    windowTitle := windowTitle s; recentFile := recentFile s;
    tab_manager := tab_manager s; threadPool := threadPool s;
    last_used_path := last_used_path s; dialogs := dialogs s;
    opened := opened s; compiled := compiled s
  |}.

Definition set_dockWidgetLogs (v : bool) : Window :=
  {|
    stackedWidget := stackedWidget s; toolbar := toolbar s;
    mnuActiveEditor := mnuActiveEditor s;
    dockWidgetNavPanel := dockWidgetNavPanel s; dockWidgetLogs := v;
    tabWidgetLogs := tabWidgetLogs s;
    plainTextEditOutput := plainTextEditOutput s;
    windowTitle := windowTitle s; recentFile := recentFile s;
    tab_manager := tab_manager s; threadPool := threadPool s;
    last_used_path := last_used_path s; dialogs := dialogs s;
    opened := opened s; compiled := compiled s
  |}.

Definition set_tabWidgetLogs (v : nat) : Window :=
  {|
    stackedWidget := stackedWidget s; toolbar := toolbar s;
    mnuActiveEditor := mnuActiveEditor s;
    dockWidgetNavPanel := dockWidgetNavPanel s;
    dockWidgetLogs := dockWidgetLogs s; tabWidgetLogs := v;
    plainTextEditOutput := plainTextEditOutput s;
    windowTitle := windowTitle s; recentFile := recentFile s;
    tab_manager := tab_manager s; threadPool := threadPool s;
    last_used_path := last_used_path s; dialogs := dialogs s;
    opened := opened s; compiled := compiled s
  |}.

Definition set_plainTextEditOutput (v : list string) : Window :=
  {|
    stackedWidget := stackedWidget s; toolbar := toolbar s;
    mnuActiveEditor := mnuActiveEditor s;
    dockWidgetNavPanel := dockWidgetNavPanel s;
    dockWidgetLogs := dockWidgetLogs s; tabWidgetLogs := tabWidgetLogs s;
    plainTextEditOutput := v; windowTitle := windowTitle s;
    recentFile := recentFile s; tab_manager := tab_manager s;
    threadPool := threadPool s; last_used_path := last_used_path s;
    dialogs := dialogs s; opened := opened s; compiled := compiled s
  |}.

Definition set_windowTitle (v : string) : Window :=
  {|
    stackedWidget := stackedWidget s; toolbar := toolbar s;
    mnuActiveEditor := mnuActiveEditor s;
    dockWidgetNavPanel := dockWidgetNavPanel s;
    dockWidgetLogs := dockWidgetLogs s; tabWidgetLogs := tabWidgetLogs s;
    plainTextEditOutput := plainTextEditOutput s; windowTitle := v;
    recentFile := recentFile s; tab_manager := tab_manager s;
    threadPool := threadPool s; last_used_path := last_used_path s;
    dialogs := dialogs s; opened := opened s; compiled := compiled s
  |}.

Definition set_recentFile (v : option string) : Window :=
  {|
    stackedWidget := stackedWidget s; toolbar := toolbar s;
    mnuActiveEditor := mnuActiveEditor s;
    dockWidgetNavPanel := dockWidgetNavPanel s;
    dockWidgetLogs := dockWidgetLogs s; tabWidgetLogs := tabWidgetLogs s;
    plainTextEditOutput := plainTextEditOutput s;
    windowTitle := windowTitle s; recentFile := v;
    tab_manager := tab_manager s; threadPool := threadPool s;
    last_used_path := last_used_path s; dialogs := dialogs s;
    opened := opened s; compiled := compiled s
  |}.

Definition set_tab_manager (v : TabManager) : Window :=
  {|
    stackedWidget := stackedWidget s; toolbar := toolbar s;
    mnuActiveEditor := mnuActiveEditor s;
    dockWidgetNavPanel := dockWidgetNavPanel s;
    dockWidgetLogs := dockWidgetLogs s; tabWidgetLogs := tabWidgetLogs s;
    plainTextEditOutput := plainTextEditOutput s;
    windowTitle := windowTitle s; recentFile := recentFile s;
    tab_manager := v; threadPool := threadPool s;
    last_used_path := last_used_path s; dialogs := dialogs s;
    opened := opened s; compiled := compiled s
  |}.

Definition set_threadPool (v : ThreadPool) : Window :=
  {|
    stackedWidget := stackedWidget s; toolbar := toolbar s;
    mnuActiveEditor := mnuActiveEditor s;
    dockWidgetNavPanel := dockWidgetNavPanel s;
    dockWidgetLogs := dockWidgetLogs s; tabWidgetLogs := tabWidgetLogs s;
    plainTextEditOutput := plainTextEditOutput s;
    windowTitle := windowTitle s; recentFile := recentFile s;
    tab_manager := tab_manager s; threadPool := v;
    last_used_path := last_used_path s; dialogs := dialogs s;
    opened := opened s; compiled := compiled s
  |}.

Definition set_last_used_path (v : string) : Window :=
  {|
    stackedWidget := stackedWidget s; toolbar := toolbar s;
    mnuActiveEditor := mnuActiveEditor s;
    dockWidgetNavPanel := dockWidgetNavPanel s;
    dockWidgetLogs := dockWidgetLogs s; tabWidgetLogs := tabWidgetLogs s;
    plainTextEditOutput := plainTextEditOutput s;
    windowTitle := windowTitle s; recentFile := recentFile s;
    tab_manager := tab_manager s; threadPool := threadPool s;
    last_used_path := v; dialogs := dialogs s; opened := opened s;
    compiled := compiled s
  |}.

Definition set_dialogs (v : list Dialog) : Window :=
  {|
    stackedWidget := stackedWidget s; toolbar := toolbar s;
    mnuActiveEditor := mnuActiveEditor s;
    dockWidgetNavPanel := dockWidgetNavPanel s;
    dockWidgetLogs := dockWidgetLogs s; tabWidgetLogs := tabWidgetLogs s;
    plainTextEditOutput := plainTextEditOutput s;
    windowTitle := windowTitle s; recentFile := recentFile s;
    tab_manager := tab_manager s; threadPool := threadPool s;
    last_used_path := last_used_path s; dialogs := v; opened := opened s;
    compiled := compiled s
  |}.

Definition set_opened (v : list string) : Window :=
  {|
    stackedWidget := stackedWidget s; toolbar := toolbar s;
    mnuActiveEditor := mnuActiveEditor s;
    dockWidgetNavPanel := dockWidgetNavPanel s;
    dockWidgetLogs := dockWidgetLogs s; tabWidgetLogs := tabWidgetLogs s;
    plainTextEditOutput := plainTextEditOutput s;
    windowTitle := windowTitle s; recentFile := recentFile s;
    tab_manager := tab_manager s; threadPool := threadPool s;
    last_used_path := last_used_path s; dialogs := dialogs s; opened := v;
    compiled := compiled s
  |}.

Definition set_compiled (v : list (string * option FileType)) : Window :=
  {|
    stackedWidget := stackedWidget s; toolbar := toolbar s;
    mnuActiveEditor := mnuActiveEditor s;
    dockWidgetNavPanel := dockWidgetNavPanel s;
    dockWidgetLogs := dockWidgetLogs s; tabWidgetLogs := tabWidgetLogs s;
    plainTextEditOutput := plainTextEditOutput s;
    windowTitle := windowTitle s; recentFile := recentFile s;
    tab_manager := tab_manager s; threadPool := threadPool s;
    last_used_path := last_used_path s; dialogs := dialogs s;
    opened := opened s; compiled := v
  |}.

End Setters.

(** The six actions of the tool bar. *)
Inductive ActionId :=
| Save_as | Save | Compile | Run | ProgramAction | SubprogramAction.

Definition update_action (a : ActionId) (f : Action -> Action) (t : Toolbar)
    : Toolbar :=
  match a with
  | Save_as =>
      {|
        actionSave_as := f (actionSave_as t); actionSave := actionSave t;
        actionCompile := actionCompile t; actionRun := actionRun t;
        actionProgram := actionProgram t;
        actionSubprogram := actionSubprogram t
      |}
  | Save =>
      {|
        actionSave_as := actionSave_as t; actionSave := f (actionSave t);
        actionCompile := actionCompile t; actionRun := actionRun t;
        actionProgram := actionProgram t;
        actionSubprogram := actionSubprogram t
      |}
  | Compile =>
      {|
        actionSave_as := actionSave_as t; actionSave := actionSave t;
        actionCompile := f (actionCompile t); actionRun := actionRun t;
        actionProgram := actionProgram t;
        actionSubprogram := actionSubprogram t
      |}
  | Run =>
      {|
        actionSave_as := actionSave_as t; actionSave := actionSave t;
        actionCompile := actionCompile t; actionRun := f (actionRun t);
        actionProgram := actionProgram t;
        actionSubprogram := actionSubprogram t
      |}
  | ProgramAction =>
      {|
        actionSave_as := actionSave_as t; actionSave := actionSave t;
        actionCompile := actionCompile t; actionRun := actionRun t;
        actionProgram := f (actionProgram t);
        actionSubprogram := actionSubprogram t
      |}
  | SubprogramAction =>
      {|
        actionSave_as := actionSave_as t; actionSave := actionSave t;
        actionCompile := actionCompile t; actionRun := actionRun t;
        actionProgram := actionProgram t;
        actionSubprogram := f (actionSubprogram t)
      |}
  end.

#[global] Instance ActionId_eq_dec : EqDecision ActionId.
Proof. solve_decision. Defined.

Definition set_fileType (t : Tab) (v : FileType) : Tab :=
  {| tagFilename := tagFilename t; fileType := v; tagEncoding := tagEncoding t;
     isCobolEditor := isCobolEditor t; errors_manager := errors_manager t;
     textCursor := textCursor t |}.

Definition set_errors_manager (t : Tab) (v : bool) : Tab :=
  {| tagFilename := tagFilename t; fileType := fileType t; tagEncoding := tagEncoding t;
     isCobolEditor := isCobolEditor t; errors_manager := v;
     textCursor := textCursor t |}.

Definition setTextCursor (t : Tab) (v : Cursor) : Tab :=
  {| tagFilename := tagFilename t; fileType := fileType t; tagEncoding := tagEncoding t;
     isCobolEditor := isCobolEditor t; errors_manager := errors_manager t;
     textCursor := v |}.

(** ** The monad of the handlers: window state and Python exceptions

    A raised exception keeps the changes made before it, as in Python. *)

Definition M (A : Type) : Type := Window -> outcome A * Window.

Definition ret {A} (a : A) : M A := fun s => (Return a, s).

Definition raise {A} (e : exn) : M A := fun s => (Raise e, s).

Definition bind {A B} (m : M A) (k : A -> M B) : M B :=
  fun s =>
    match m s with
    | (Return a, s') => k a s'
    | (Raise e, s') => (Raise e, s')
    end.

Definition gets {A} (f : Window -> A) : M A := fun s => (Return (f s), s).

Definition modify (f : Window -> Window) : M unit := fun s => (Return tt, f s).

(** [try: body  except cls: handler] *)
Definition try_except {A} (body : M A) (cls : exn) (handler : M A) : M A :=
  fun s =>
    match body s with
    | (Raise e, s') => if isinstance_exn e cls then handler s' else (Raise e, s')
    | r => r
    end.

(** [try: body  except: handler] *)
Definition try_except_any {A} (body : M A) (handler : M A) : M A :=
  fun s =>
    match body s with
    | (Raise _, s') => handler s'
    | r => r
    end.

Declare Scope py_scope.
Delimit Scope py_scope with py.
Notation "x <- m ;; k" := (bind m (fun x => k))
  (at level 100, m at next level, k at level 200, right associativity) : py_scope.
Notation "m ;; k" := (bind m (fun _ => k))
  (at level 100, k at level 200, right associativity) : py_scope.
Open Scope py_scope.

(** ** The tab manager *)

(** Modelled from the spec: what the controller reads from, and writes to,
    the tab manager. *)
Module TabManager.

Definition has_open_tabs (tm : TabManager) : bool :=
  match tabs tm with [] => false | _ :: _ => true end.

Definition active_tab (tm : TabManager) : option Tab :=
  tabs tm !! current tm.

Definition active_tab_type (tm : TabManager) : option FileType :=
  fileType <$> active_tab tm.

(** Replaces the active editor; attribute assignment on Python's None
    raises. *)
Definition update_active (f : Tab -> Tab) : M unit :=
  tm <- gets tab_manager ;;
  match active_tab tm with
  | None => raise AttributeError
  | Some t =>
      modify (fun s =>
        set_tab_manager s
          {| tabs := <[current tm := f t]> (tabs tm); current := current tm |})
  end.

Definition active_tab_filename : M string :=
  tm <- gets tab_manager ;;
  match active_tab tm with
  | None => raise AttributeError
  | Some t => ret (tagFilename t)
  end.

End TabManager.

(** ** The controller *)

Section MainWindow.

Variable w : World.

(** [open(filename, 'r')] and reading the whole file; every failure of
    the built-in file object is an IOError. *)
Definition open_read (filename : string) : M string :=
  modify (fun s => set_opened s (opened s ++ [filename])) ;;
  match read_file w filename with
  | Some data => ret data
  | None => raise IOError
  end.

Definition setEnabled (a : ActionId) (b : bool) : M unit :=
  modify (fun s =>
    set_toolbar s
      (update_action a (fun x => {| enabled := b; checked := checked x |})
         (toolbar s))).

Definition setChecked (a : ActionId) (b : bool) : M unit :=
  modify (fun s =>
    set_toolbar s
      (update_action a (fun x => {| enabled := enabled x; checked := b |})
         (toolbar s))).

Definition critical (title text : string) : M unit :=
  modify (fun s =>
    set_dialogs s
      (dialogs s ++ [{| kind := Critical; title := title; text := text |}])).

Definition is_CobolEditor (t : option Tab) : bool :=
  match t with Some t => isCobolEditor t | None => false end.

Definition __update_toolbar : M unit :=
  tm <- gets tab_manager ;;
  if negb (TabManager.has_open_tabs tm) then
    setEnabled Save_as false ;;
    setEnabled Save false ;;
    setEnabled Compile false ;;
    setEnabled Run false ;;
    setEnabled ProgramAction false ;;
    setChecked ProgramAction false ;;
    setEnabled SubprogramAction false ;;
    setChecked SubprogramAction false
  else
    setEnabled Save_as true ;;
    setEnabled Save true ;;
    if is_CobolEditor (TabManager.active_tab tm) then
      setEnabled Compile true ;;
      setEnabled Run true ;;
      setEnabled ProgramAction true ;;
      setEnabled SubprogramAction true ;;
      if bool_decide (TabManager.active_tab_type tm = Some Program) then
        setChecked ProgramAction true ;;
        setChecked SubprogramAction false
      else if bool_decide (TabManager.active_tab_type tm = Some Subprogram) then
        setChecked ProgramAction false ;;
        setChecked SubprogramAction true ;;
        setEnabled Run false
      else ret tt
    else
      setEnabled Compile false ;;
      setEnabled Run false ;;
      setEnabled ProgramAction false ;;
      setEnabled SubprogramAction false ;;
      setChecked ProgramAction false ;;
      setChecked SubprogramAction false.

(** Truth value of the detector's answer: None and the empty name are
    false. *)
Definition truthy (encoding : option string) : bool :=
  match encoding with
  | None | Some EmptyString => false
  | Some _ => true
  end.

Definition detect_encoding (filename : string) : M string :=
  try_except_any
    (data <- open_read filename ;;
     match chardet_encoding w data with
     | Raise e => raise e
     | Return encoding =>
         if negb (truthy encoding) then raise Exception
         else ret (default EmptyString encoding)
     end)
    (ret (sys_getfilesystemencoding w)).

Definition MARKER : string := "PROCEDURE DIVISION USING".

(** The loop over the lines, with its [break]. *)
Fixpoint scan (lines : list string) (type : FileType) : FileType :=
  match lines with
  | [] => type
  | l :: rest =>
      if Str.contains MARKER (Str.upper l) then Subprogram
      else scan rest type
  end.

Definition detect_file_type (filename : string) : M FileType :=
  let ext := QFileInfo.suffix filename in
  let type := Text in
  if String.eqb ext "cbl" then
    let type := Program in
    try_except
      (data <- open_read filename ;;
       let lines := Str.readlines data in
       ret (scan lines type))
      (py_or IOError OSError)
      (ret type)
  else ret type.

(** Modelled from the spec: [TabManager.open_tab].  A decode failure
    leaves no tab registered; otherwise the new editor is appended and
    becomes the active one.  The result is the position of the editor:
    the Python value is a reference to the shared editor object. *)
Definition open_tab (filename : string) (filetype : FileType)
    (encoding : string) : M nat :=
  match open_tab_editor w filename filetype encoding with
  | None => raise UnicodeDecodeError
  | Some cobol =>
      tm <- gets tab_manager ;;
      let tab := {| tagFilename := filename; fileType := filetype;
                    tagEncoding := encoding; isCobolEditor := cobol;
                    errors_manager := false; textCursor := 0 |} in
      modify (fun s =>
        set_tab_manager s
          {| tabs := tabs tm ++ [tab]; current := length (tabs tm) |}) ;;
      ret (length (tabs tm))
  end.

(** Modelled from the spec: [TabManager.active_tab_file_dir], the
    directory of the active editor's file. *)
Definition active_tab_file_dir : M string :=
  filename <- TabManager.active_tab_filename ;;
  ret (os_path_dirname w filename).

Definition bad_encoding_text : string :=
  "Failed to open %s, bad encoding." ++ String "010" (String "010"
  ("Chardet could not detect a usable encoding, please encode your file with"
   ++ "a standard encoding (utf-8 for example)")).

Definition _open_file (filename : string) (filetype : option FileType)
    : M unit :=
  if negb (String.eqb filename "") && os_path_exists w filename then
    let filename := os_path_normpath w filename in
    modify (fun s => set_stackedWidget s PAGE_EDITOR) ;;
    try_except
      (filetype <-
         match filetype with
         | Some t => if filetype_truthy w t then ret t
                     else detect_file_type filename
         | None => detect_file_type filename
         end ;;
       encoding <- detect_encoding filename ;;
       tab <- open_tab filename filetype encoding ;;
       dir <- active_tab_file_dir ;;
       modify (fun s => set_last_used_path s dir) ;;
       tm <- gets tab_manager ;;
       (if is_CobolEditor (tabs tm !! tab) then
          (* tab.errors_manager = ErrorsManager(listWidgetErrors, tab) *)
          modify (fun s =>
            set_tab_manager s
              {| tabs := alter (fun t => set_errors_manager t true) tab
                           (tabs tm);
                 current := current tm |})
        else ret tt) ;;
       __update_toolbar ;;
       modify (fun s => set_recentFile s (Some filename)))
      UnicodeDecodeError
      (critical "Bad encoding" bad_encoding_text)
  else ret tt.

(** The constructor, run on the widgets as [setupUi] built them.  Signal
    connections are the cases of [handle] below; the status bar and the
    home page's recent-files menu are not tracked. *)
Definition __init__ : M unit :=
  modify (fun s => set_threadPool s {| maxThreadCount := 1; runners := [] |}) ;;
  modify (fun s => set_mnuActiveEditor s false) ;;
  modify (fun s => set_tab_manager s {| tabs := []; current := 0 |}) ;;
  __update_toolbar ;;
  modify (fun s => set_stackedWidget s PAGE_HOME) ;;
  modify (fun s => set_dockWidgetNavPanel s false) ;;
  modify (fun s => set_dockWidgetLogs s false).

(** [QThreadPool.start(runner)] *)
Definition start (runner : Runner) : M unit :=
  modify (fun s =>
    set_threadPool s
      {| maxThreadCount := maxThreadCount (threadPool s);
         runners := runners (threadPool s) ++ [runner] |}).

Definition appendPlainText (line : string) : M unit :=
  modify (fun s => set_plainTextEditOutput s (plainTextEditOutput s ++ [line])).

(** The three signals of the runner are connected to [actionRun.setEnabled],
    [plainTextEditOutput.appendPlainText] and [__on_run_error]; they are
    delivered by the handlers that follow this one. *)
Definition on_actionRun_triggered : M unit :=
  modify (fun s => set_tabWidgetLogs s 1) ;;
  modify (fun s => set_plainTextEditOutput s []) ;;
  filename <- TabManager.active_tab_filename ;;
  let runner := {| runner_filename := filename |} in
  start runner.

(** Delivery of [runner.events.finished]: the oldest runner leaves the
    pool and the connected slot runs on the emitted value. *)
Definition on_runner_finished (value : bool) : M unit :=
  modify (fun s =>
    set_threadPool s
      {| maxThreadCount := maxThreadCount (threadPool s);
         runners := tail (runners (threadPool s)) |}) ;;
  setEnabled Run value.

Definition __on_run_error (msg : string) : M unit :=
  appendPlainText msg ;;
  critical "Error executing program"
    ("An error occured while running a cobol program:"
     ++ String "010" (String "010" msg)).

(** [int(text)]; the exception is ValueError or the subclass of it that
    Python 2 raises on a character that is neither a digit nor a space. *)
Definition int (text : Unicode.text) : M Z :=
  match builtin_int w text with
  | Some n => ret n
  | None => raise ValueError
  end.

(** [item_text] is [item.text()]. *)
Definition __on_error_double_clicked (item_text : Unicode.text) : M unit :=
  try_except
    (line <- int (hd [] (Unicode.split Unicode.colon item_text)) ;;
     tm <- gets tab_manager ;;
     match TabManager.active_tab tm with
     | None => raise AttributeError
     | Some edit =>
         let c := cursorForPosition w edit line 1 in
         TabManager.update_active (fun t => setTextCursor t c)
     end)
    ValueError
    (ret tt).

(** The error list, the navigation tree, the editor's context menu and
    the status bar are not tracked. *)
Definition __on_current_tab_changed (widget : option Tab) (txt : string)
    : M unit :=
  match widget with
  | Some editor =>
      modify (fun s => set_windowTitle s ("OpenCobol IDE - " ++ txt)) ;;
      __update_toolbar ;;
      (if isCobolEditor editor then
         modify (fun s => set_dockWidgetNavPanel s true)
       else
         modify (fun s => set_dockWidgetNavPanel s false)) ;;
      modify (fun s => set_tabWidgetLogs s 0) ;;
      modify (fun s => set_mnuActiveEditor s true) ;;
      modify (fun s => set_dockWidgetLogs s true)
  | None =>
      modify (fun s => set_windowTitle s "OpenCobol IDE") ;;
      __update_toolbar ;;
      modify (fun s => set_plainTextEditOutput s []) ;;
      modify (fun s => set_mnuActiveEditor s false) ;;
      modify (fun s => set_stackedWidget s PAGE_HOME) ;;
      modify (fun s => set_dockWidgetNavPanel s false) ;;
      modify (fun s => set_dockWidgetLogs s false)
  end.

Definition __change_current_file_type (action : ActionId) : M unit :=
  tm <- gets tab_manager ;;
  (if negb (bool_decide (TabManager.active_tab_type tm = Some Text)) then
     if bool_decide (action = ProgramAction) then
       TabManager.update_active (fun t => set_fileType t Program)
     else
       TabManager.update_active (fun t => set_fileType t Subprogram)
   else ret tt) ;;
  __update_toolbar.

(** The answer of a collaborator, which leaves the window alone. *)
Definition call {A} (answer : outcome A) : M A := fun s => (answer, s).

(** Reading [editor.codeEdit] fails on Python's None, with an exception
    that the guard lets through.  The file that pcef writes and the two
    menu entries that [__update_status_bar_infos] checks are not
    tracked. *)
Definition on_actionSave_triggered : M unit :=
  tm <- gets tab_manager ;;
  match TabManager.active_tab tm with
  | None => raise AttributeError
  | Some editor =>
      try_except
        (call (saveFileFromEditor w editor (tagEncoding editor)))
        UnicodeEncodeError
        (call (saveFileFromEditor w editor "utf-8"))
  end ;;
  filename <- TabManager.active_tab_filename ;;
  modify (fun s => set_recentFile s (Some filename)).

(** [cobol.compile(filename, type)]: an ordinary call, which runs the
    compiler to its end before the handler goes on. *)
Definition compile (filename : string) (type : option FileType)
    : M (list string * string) :=
  modify (fun s => set_compiled s (compiled s ++ [(filename, type)])) ;;
  call (cobol_compile w filename type).

(** The last statement hands the errors to the errors manager of the
    active editor, which must be there; the error list is not tracked. *)
Definition on_actionCompile_triggered : M unit :=
  modify (fun s => set_tabWidgetLogs s 0) ;;
  on_actionSave_triggered ;;
  filename <- TabManager.active_tab_filename ;;
  tm <- gets tab_manager ;;
  result <- compile filename (TabManager.active_tab_type tm) ;;
  match TabManager.active_tab tm with
  | Some editor => if errors_manager editor then ret tt
                   else raise AttributeError
  | None => raise AttributeError
  end.

(** Modelled from the spec: the tab manager closing the editor at
    position [i], making the last remaining editor the active one and
    notifying the controller of it (of None once no editor is left). *)
Definition close_tab (i : nat) : M unit :=
  tm <- gets tab_manager ;;
  let tm' := {| tabs := delete i (tabs tm);
                current := Nat.pred (length (delete i (tabs tm))) |} in
  modify (fun s => set_tab_manager s tm') ;;
  match TabManager.active_tab tm' with
  | Some t => __on_current_tab_changed (Some t) (tagFilename t)
  | None => __on_current_tab_changed None EmptyString
  end.

End MainWindow.

(** ** The event loop *)

(** What the toolkit delivers to the controller. *)
Inductive event :=
| OpenFile (filename : string) (filetype : option FileType)
| CloseTab (i : nat)
| ChangeFileType (action : ActionId)
| TriggerRun
| RunnerFinished (value : bool)
| RunnerLine (line : string)
| RunnerError (msg : string)
| ErrorDoubleClicked (item_text : Unicode.text)
| TriggerCompile.

(** A disabled [QAction] cannot be triggered. *)
Definition when_enabled (a : Toolbar -> Action) (m : M unit) : M unit :=
  fun s => if enabled (a (toolbar s)) then m s else (Return tt, s).

Definition handle (w : World) (e : event) : M unit :=
  match e with
  | OpenFile filename filetype => _open_file w filename filetype
  | CloseTab i => close_tab i
  | ChangeFileType ProgramAction =>
      when_enabled actionProgram (__change_current_file_type ProgramAction)
  | ChangeFileType SubprogramAction =>
      when_enabled actionSubprogram
        (__change_current_file_type SubprogramAction)
  | ChangeFileType _ => ret tt      (* not in the action group *)
  | TriggerRun => when_enabled actionRun on_actionRun_triggered
  | RunnerFinished value => on_runner_finished value
  | RunnerLine line => appendPlainText line
  | RunnerError msg => __on_run_error msg
  | ErrorDoubleClicked item_text => __on_error_double_clicked w item_text
  | TriggerCompile => when_enabled actionCompile (on_actionCompile_triggered w)
  end.

(** An exception that leaves a slot is reported and the loop goes on. *)
Definition step (w : World) (e : event) (s : Window) : Window :=
  snd (handle w e s).

Definition run (w : World) (es : list event) (s : Window) : Window :=
  fold_left (fun s e => step w e s) es s.

Inductive reachable (w : World) : Window -> Prop :=
| reachable_init ui : reachable w (snd (__init__ ui))
| reachable_step s e : reachable w s -> reachable w (step w e s).

(** ** Specification vocabulary *)

(** Equality of two texts up to the case of their letters. *)
Definition same_ignoring_case (a b : string) : Prop :=
  Str.upper a = Str.upper b.

(** Some line of the file at [filename] has a segment that reads
    "procedure division using" in some mix of cases. *)
Definition has_marker_line (w : World) (filename : string) : Prop :=
  exists data l pre m post,
    read_file w filename = Some data /\
    In l (Str.readlines data) /\
    l = pre ++ m ++ post /\
    same_ignoring_case m "procedure division using".

(** The window after the text cursor of the active editor [edit] has been
    placed on [line]: the editor keeps its file, classification, encoding,
    kind and errors manager, its cursor is the one that
    [cursorForPosition] builds for that line and column 1, and nothing
    else changes. *)
Definition cursor_moved (w : World) (s : Window) (edit : Tab) (line : Z)
    : Window :=
  set_tab_manager s
    {| tabs := <[current (tab_manager s) :=
                   {| tagFilename := tagFilename edit;
                      fileType := fileType edit;
                      tagEncoding := tagEncoding edit;
                      isCobolEditor := isCobolEditor edit;
                      errors_manager := errors_manager edit;
                      textCursor := cursorForPosition w edit line 1 |}]>
                 (tabs (tab_manager s));
       current := current (tab_manager s) |}.

(** The text before the first colon of [item] is [h]; the whole of [item]
    when it has no colon. *)
Definition text_before_colon (item h : Unicode.text) : Prop :=
  ~ In Unicode.colon h /\
  (item = h \/ exists rest, item = (h ++ Unicode.colon :: rest)%list).

(** The runners that the pool is executing, and those it keeps waiting:
    [QThreadPool.start] runs a runner at once while fewer than
    [maxThreadCount] are running, and queues it otherwise. *)
Definition executing (p : ThreadPool) : list Runner :=
  take (maxThreadCount p) (runners p).

Definition waiting (p : ThreadPool) : list Runner :=
  drop (maxThreadCount p) (runners p).

(** An editor is open, the active one is a COBOL editor, and its
    classification is not Subprogram. *)
Definition run_allowed (tm : TabManager) : bool :=
  TabManager.has_open_tabs tm &&
  is_CobolEditor (TabManager.active_tab tm) &&
  negb (bool_decide (TabManager.active_tab_type tm = Some Subprogram)).

(** [m] never changes the observation [P] of the window. *)
Definition preserves {X A : Type} (P : Window -> X) (m : M A) : Prop :=
  forall s, P (snd (m s)) = P s.

(** The page shown and whether any editor is open. *)
Definition view (s : Window) : Page * bool :=
  (stackedWidget s, TabManager.has_open_tabs (tab_manager s)).

(** How many runners the thread pool executes at once. *)
Definition capacity (s : Window) : nat := maxThreadCount (threadPool s).

(** ** A sample installation *)

Module Sample.

Definition nl : string := String "010" EmptyString.

Definition hello_cbl : string :=
  "       IDENTIFICATION DIVISION." ++ nl ++
  "       PROGRAM-ID. HELLO." ++ nl ++
  "       PROCEDURE DIVISION." ++ nl ++
  "           DISPLAY 'HELLO'." ++ nl.

Definition calc_cbl : string :=
  "       identification division." ++ nl ++
  "       program-id. calc." ++ nl ++
  "       Procedure Division Using a b." ++ nl ++
  "           add a to b." ++ nl.

Definition files : list (string * string) :=
  [("/src/hello.cbl", hello_cbl); ("/src/calc.cbl", calc_cbl);
   ("/src/notes.txt", "to do"); ("/src/latin1.cbl", hello_cbl);
   ("/src/MENU.CBL", calc_cbl)].

Definition lookup_file (p : string) : option string :=
  snd <$> find (fun f => String.eqb (fst f) p) files.

(** What [int] makes of a digit in the sample: decimal digits are read,
    the ASCII ones and the full-width ones. *)
Definition digit (c : N) : option Z :=
  if (48 <=? c)%N && (c <=? 57)%N then Some (Z.of_N (c - 48))
  else if (65296 <=? c)%N && (c <=? 65305)%N then Some (Z.of_N (c - 65296))
  else None.

Fixpoint digits (acc : Z) (text : Unicode.text) : option Z :=
  match text with
  | [] => Some acc
  | c :: t =>
      match digit c with
      | Some d => digits (10 * acc + d)%Z t
      | None => None
      end
  end.

(** [int] on the texts of the sample: a run of digits has its value, the
    texts without digits that occur below are rejected. *)
Definition int (text : Unicode.text) : option Z :=
  match text with
  | [] => None
  | _ => digits 0 text
  end.

(** The number 12 in full-width digits. *)
Definition wide_12 : Unicode.text := [65297%N; 65298%N].

Definition world : World :=
  {| os_path_exists := fun p => bool_decide (is_Some (lookup_file p));
     os_path_normpath := fun p => p;
     os_path_dirname := fun _ => "/src";
     read_file := lookup_file;
     chardet_encoding := fun data =>
       match data with
       | EmptyString => Return None
       | _ => Return (Some "ascii")
       end;
     sys_getfilesystemencoding := "UTF-8";
     filetype_truthy := fun _ => true;
     open_tab_editor := fun p t _ =>
       if String.eqb p "/src/latin1.cbl" then None
       else Some (negb (bool_decide (t = Text)));
     cursorForPosition := fun _ line _ => Z.to_nat line;
     builtin_int := int;
     saveFileFromEditor := fun _ _ => Return tt;
     cobol_compile := fun p _ => Return ([], p ++ ".exe") |}.

Definition fresh : Action := {| enabled := true; checked := false |}.

(** The widgets right after [setupUi]. *)
Definition ui : Window :=
  {| stackedWidget := PAGE_HOME;
     toolbar := {| actionSave_as := fresh; actionSave := fresh;
                   actionCompile := fresh; actionRun := fresh;
                   actionProgram := fresh; actionSubprogram := fresh |};
     mnuActiveEditor := true; dockWidgetNavPanel := true;
     dockWidgetLogs := true; tabWidgetLogs := 0;
     plainTextEditOutput := []; windowTitle := "OpenCobol IDE";
     recentFile := None;
     tab_manager := {| tabs := []; current := 0 |};
     threadPool := {| maxThreadCount := 4; runners := [] |};
     last_used_path := ""; dialogs := []; opened := []; compiled := [] |}.

(** The window as the constructor leaves it. *)
Definition started : Window := snd (__init__ ui).

(** One COBOL program open. *)
Definition hello_open : Window :=
  run world [OpenFile "/src/hello.cbl" None] started.

Definition hello_tab : Tab :=
  {| tagFilename := "/src/hello.cbl"; fileType := Program;
     tagEncoding := "ascii"; isCobolEditor := true;
     errors_manager := true; textCursor := 0 |}.

(** One plain text file open. *)
Definition notes_open : Window :=
  run world [OpenFile "/src/notes.txt" None] started.

End Sample.

(** * Properties *)

(** ** Python strings *)

Section Strings.

Lemma append_cons (c : ascii) (a b : string) :
  String c a ++ b = String c (a ++ b).
Proof. reflexivity. Qed.

Lemma upper_app (a b : string) :
  Str.upper (a ++ b) = Str.upper a ++ Str.upper b.
Proof.
  induction a as [|c a IH]; [reflexivity|].
  rewrite append_cons. simpl. now rewrite IH.
Qed.

(** [upper] works character by character, so a cut of the result is the
    image of a cut of the argument. *)
Lemma upper_app_inv (l a b : string) :
  Str.upper l = a ++ b ->
  exists x y, l = x ++ y /\ Str.upper x = a /\ Str.upper y = b.
Proof.
  revert l. induction a as [|c a IH]; intros l H.
  - exists EmptyString, l. auto.
  - destruct l as [|d l]; [discriminate|].
    rewrite append_cons in H. simpl in H.
    injection H as Hc Hl.
    destruct (IH _ Hl) as (x & y & -> & Hx & Hy).
    exists (String d x), y. simpl. rewrite Hc, Hx. auto.
Qed.

Lemma prefix_true_iff (a b : string) :
  String.prefix a b = true <-> exists post, b = a ++ post.
Proof.
  revert b. induction a as [|c a IH]; intros b.
  - destruct b; simpl; split; eauto.
  - destruct b as [|d b]; simpl.
    + split; [discriminate | intros [post H]; discriminate].
    + destruct (Ascii.ascii_dec c d) as [->|Hcd].
      * rewrite IH. split; intros [post H]; exists post.
        -- now rewrite H.
        -- rewrite append_cons in H. now injection H.
      * split; [discriminate|]. intros [post H].
        rewrite append_cons in H. congruence.
Qed.

Lemma contains_nil (needle : string) :
  Str.contains needle EmptyString = String.prefix needle EmptyString.
Proof. apply orb_false_r. Qed.

Lemma contains_cons (needle : string) (c : ascii) (hay : string) :
  Str.contains needle (String c hay) =
  String.prefix needle (String c hay) || Str.contains needle hay.
Proof. reflexivity. Qed.

Lemma contains_true_iff (needle hay : string) :
  Str.contains needle hay = true <->
  exists pre post, hay = pre ++ needle ++ post.
Proof.
  induction hay as [|c hay IH].
  - rewrite contains_nil, prefix_true_iff. split.
    + intros [post H]. exists EmptyString, post. exact H.
    + intros (pre & post & H). destruct pre; [eauto | discriminate].
  - rewrite contains_cons, orb_true_iff, prefix_true_iff, IH. split.
    + intros [[post H] | (pre & post & H)].
      * exists EmptyString, post. exact H.
      * exists (String c pre), post. rewrite append_cons. now rewrite H.
    + intros (pre & post & H). destruct pre as [|d pre].
      * left. eauto.
      * right. rewrite append_cons in H. injection H as _ H. eauto.
Qed.

(** The test of the source on one line, in the words of the spec. *)
Lemma line_has_marker (l : string) :
  Str.contains MARKER (Str.upper l) = true <->
  exists pre m post,
    l = pre ++ m ++ post /\
    same_ignoring_case m "procedure division using".
Proof.
  rewrite contains_true_iff. split.
  - intros (pre' & post' & H).
    apply upper_app_inv in H as (pre & rest & -> & _ & H).
    apply upper_app_inv in H as (m & post & -> & Hm & _).
    exists pre, m, post. split; [reflexivity|]. exact Hm.
  - intros (pre & m & post & -> & Hm).
    exists (Str.upper pre), (Str.upper post).
    rewrite !upper_app. now rewrite Hm.
Qed.

Lemma scan_Subprogram (lines : list string) (type : FileType) :
  (exists l, In l lines /\ Str.contains MARKER (Str.upper l) = true) ->
  scan lines type = Subprogram.
Proof.
  induction lines as [|l lines IH]; intros (x & Hin & Hx).
  - destruct Hin.
  - simpl. destruct (Str.contains MARKER (Str.upper l)) eqn:E; [reflexivity|].
    apply IH. destruct Hin as [->|Hin]; [congruence | eauto].
Qed.

Lemma scan_default (lines : list string) (type : FileType) :
  ~ (exists l, In l lines /\ Str.contains MARKER (Str.upper l) = true) ->
  scan lines type = type.
Proof.
  induction lines as [|l lines IH]; intros H; [reflexivity|].
  simpl. destruct (Str.contains MARKER (Str.upper l)) eqn:E.
  - exfalso. apply H. exists l. split; [now left | exact E].
  - apply IH. intros (x & Hin & Hx). apply H. exists x. split; [now right | exact Hx].
Qed.

End Strings.

(** The string functions on the inputs of the Python documentation. *)

Example upper_example :
  Str.upper "Procedure Division using x-1." = "PROCEDURE DIVISION USING X-1.".
Proof. reflexivity. Qed.

Example contains_example :
  Str.contains "ab" "cabd" = true /\ Str.contains "ab" "acbd" = false /\
  Str.contains "" "" = true.
Proof. repeat split. Qed.

Example readlines_example :
  Str.readlines ("one" ++ Sample.nl ++ Sample.nl ++ "three") =
  ["one" ++ Sample.nl; Sample.nl; "three"].
Proof. reflexivity. Qed.

Example split_example :
  Unicode.split Unicode.colon (Unicode.of_string "12:Some: error") =
    map Unicode.of_string ["12"; "Some"; " error"] /\
  Unicode.split Unicode.colon [] = [[]] /\
  Unicode.split Unicode.colon [Unicode.colon] = [[]; []].
Proof. repeat split. Qed.

Example suffix_example :
  QFileInfo.suffix "/tmp/archive.tar.gz" = "gz" /\
  QFileInfo.suffix "/src/prog.cbl" = "cbl" /\
  QFileInfo.suffix "/src.cbl/prog" = "" /\
  QFileInfo.suffix "/src/PROG.CBL" = "CBL".
Proof. repeat split. Qed.

(** ** The detectors *)

Section Detector.

Variable w : World.

(** On a path with the COBOL suffix the detector opens the file once and
    scans its lines; an unreadable file counts as a program. *)
Lemma detect_file_type_cbl (filename : string) (s : Window) :
  QFileInfo.suffix filename = "cbl" ->
  detect_file_type w filename s =
  (Return match read_file w filename with
          | Some data => scan (Str.readlines data) Program
          | None => Program
          end,
   set_opened s (opened s ++ [filename])).
Proof.
  intros Hext. unfold detect_file_type. rewrite Hext. simpl.
  unfold try_except, bind, open_read, bind, modify. simpl.
  destruct (read_file w filename); reflexivity.
Qed.

Lemma detect_file_type_other (filename : string) (s : Window) :
  QFileInfo.suffix filename <> "cbl" ->
  detect_file_type w filename s = (Return Text, s).
Proof.
  intros Hext. unfold detect_file_type.
  destruct (String.eqb_spec (QFileInfo.suffix filename) "cbl"); [contradiction|].
  reflexivity.
Qed.

(** The marker test on a whole file, as the source computes it. *)
Lemma has_marker_line_iff (filename : string) :
  has_marker_line w filename <->
  exists data l,
    read_file w filename = Some data /\ In l (Str.readlines data) /\
    Str.contains MARKER (Str.upper l) = true.
Proof.
  split.
  - intros (data & l & pre & m & post & Hr & Hin & Hl & Hm).
    exists data, l. repeat split; try assumption.
    apply line_has_marker. eauto.
  - intros (data & l & Hr & Hin & Hc).
    apply line_has_marker in Hc as (pre & m & post & Hl & Hm).
    exists data, l, pre, m, post. auto.
Qed.

(** C1.  On a path whose suffix is not "cbl" the detector returns Text.
    On a path with the suffix "cbl" it returns Subprogram when some line
    of the file contains "procedure division using" in any mix of cases,
    and Program otherwise (an unreadable file has no line). *)
Theorem detect_file_type_spec (filename : string) (s : Window) :
  (QFileInfo.suffix filename <> "cbl" ->
   fst (detect_file_type w filename s) = Return Text) /\
  (QFileInfo.suffix filename = "cbl" ->
   (has_marker_line w filename ->
    fst (detect_file_type w filename s) = Return Subprogram) /\
   (~ has_marker_line w filename ->
    fst (detect_file_type w filename s) = Return Program)).
Proof.
  split.
  - intros H. now rewrite detect_file_type_other.
  - intros H. rewrite (detect_file_type_cbl _ _ H). simpl.
    rewrite has_marker_line_iff. split.
    + intros (data & l & -> & Hin & Hc).
      f_equal. apply scan_Subprogram. eauto.
    + intros Hno. destruct (read_file w filename) as [data|]; [|reflexivity].
      f_equal. apply scan_default.
      intros (l & Hin & Hc). apply Hno. exists data, l. auto.
Qed.

(** C10.  The suffix test is case-sensitive: a suffix that equals "cbl"
    only up to case ("CBL", "Cbl", ...) gives Text, and the file is never
    opened: the log of opened paths is as before. *)
Theorem detect_file_type_case_sensitive (filename : string) (s : Window) :
  same_ignoring_case (QFileInfo.suffix filename) "cbl" ->
  QFileInfo.suffix filename <> "cbl" ->
  fst (detect_file_type w filename s) = Return Text /\
  opened (snd (detect_file_type w filename s)) = opened s.
Proof.
  intros _ H. now rewrite detect_file_type_other.
Qed.

End Detector.

(** The three cases of C1 on the sample files. *)
Lemma detect_file_type_spec_witness :
  fst (detect_file_type Sample.world "/src/notes.txt" Sample.started) = Return Text /\
  fst (detect_file_type Sample.world "/src/calc.cbl" Sample.started) = Return Subprogram /\
  fst (detect_file_type Sample.world "/src/hello.cbl" Sample.started) = Return Program.
Proof.
  split; [|split].
  - apply (proj1 (detect_file_type_spec Sample.world "/src/notes.txt" Sample.started)).
    vm_compute. discriminate.
  - apply (proj2 (detect_file_type_spec Sample.world "/src/calc.cbl" Sample.started)).
    + reflexivity.
    + exists Sample.calc_cbl, ("       Procedure Division Using a b." ++ Sample.nl),
        "       ", "Procedure Division Using", (" a b." ++ Sample.nl).
      vm_compute. auto 10.
  - apply (proj2 (detect_file_type_spec Sample.world "/src/hello.cbl" Sample.started)).
    + reflexivity.
    + rewrite has_marker_line_iff. intros (data & l & Hr & Hin & Hc).
      vm_compute in Hr. injection Hr as <-.
      vm_compute in Hin.
      repeat (destruct Hin as [<-|Hin]; [vm_compute in Hc; discriminate|]).
      destruct Hin.
Defined.

(** C10 on a file whose suffix is in capitals. *)
Lemma detect_file_type_case_sensitive_witness :
  fst (detect_file_type Sample.world "/src/MENU.CBL" Sample.started) = Return Text /\
  opened (snd (detect_file_type Sample.world "/src/MENU.CBL" Sample.started)) = [].
Proof.
  apply (detect_file_type_case_sensitive Sample.world "/src/MENU.CBL" Sample.started).
  - reflexivity.
  - vm_compute. discriminate.
Defined.

Section Encoding.

Variable w : World.

Lemma detect_encoding_run (filename : string) (s : Window) :
  detect_encoding w filename s =
  (Return match read_file w filename with
          | Some data =>
              match chardet_encoding w data with
              | Return (Some name) =>
                  if truthy (Some name) then name
                  else sys_getfilesystemencoding w
              | _ => sys_getfilesystemencoding w
              end
          | None => sys_getfilesystemencoding w
          end,
   set_opened s (opened s ++ [filename])).
Proof.
  unfold detect_encoding, try_except_any, bind, open_read, bind, modify.
  simpl.
  destruct (read_file w filename) as [data|]; [|reflexivity]. simpl.
  destruct (chardet_encoding w data) as [[[|c name]|]|e]; reflexivity.
Qed.

(** C7.  [detect_encoding] always returns.  It returns the file system
    encoding when the file cannot be read, when the detector raises and
    when the detector has no answer (None or an empty name); otherwise it
    returns the detector's answer. *)
Theorem detect_encoding_never_raises (filename : string) (s : Window) :
  let result := fst (detect_encoding w filename s) in
  (exists encoding, result = Return encoding) /\
  (read_file w filename = None ->
   result = Return (sys_getfilesystemencoding w)) /\
  (forall data e,
     read_file w filename = Some data ->
     chardet_encoding w data = Raise e ->
     result = Return (sys_getfilesystemencoding w)) /\
  (forall data answer,
     read_file w filename = Some data ->
     chardet_encoding w data = Return answer ->
     truthy answer = false ->
     result = Return (sys_getfilesystemencoding w)) /\
  (forall data name,
     read_file w filename = Some data ->
     chardet_encoding w data = Return (Some name) ->
     name <> EmptyString ->
     result = Return name).
Proof.
  cbv zeta. rewrite detect_encoding_run. simpl.
  split; [eauto|]. split; [|split; [|split]].
  - now intros ->.
  - now intros data e -> ->.
  - intros data answer -> -> Hf. destruct answer as [name|]; [|reflexivity].
    destruct name; [reflexivity | discriminate Hf].
  - intros data name -> -> Hn. destruct name; [contradiction | reflexivity].
Qed.

End Encoding.

(** C7 on a readable file and on a missing one. *)
Lemma detect_encoding_never_raises_witness :
  fst (detect_encoding Sample.world "/src/hello.cbl" Sample.started) = Return "ascii" /\
  fst (detect_encoding Sample.world "/src/absent.cbl" Sample.started) = Return "UTF-8".
Proof.
  pose proof (detect_encoding_never_raises Sample.world "/src/hello.cbl" Sample.started)
    as (_ & _ & _ & _ & Hanswer).
  pose proof (detect_encoding_never_raises Sample.world "/src/absent.cbl" Sample.started)
    as (_ & Hio & _).
  split.
  - apply (Hanswer Sample.hello_cbl "ascii"); [reflexivity | reflexivity | discriminate].
  - apply Hio. reflexivity.
Defined.

Section OpenFile.

Variable w : World.

Lemma open_file_guard (filename : string) (filetype : option FileType)
    (s : Window) :
  negb (String.eqb filename EmptyString) && os_path_exists w filename = false ->
  _open_file w filename filetype s = (Return tt, s).
Proof. intros H. unfold _open_file. now rewrite H. Qed.

(** C6.  On the empty path and on a path that does not exist,
    [_open_file] returns at once and the window is exactly as before: no
    tab, no page switch, no dialog, no file opened. *)
Theorem open_file_rejected (filename : string) (filetype : option FileType)
    (s : Window) :
  filename = EmptyString \/ os_path_exists w filename = false ->
  _open_file w filename filetype s = (Return tt, s).
Proof.
  intros H. apply open_file_guard. destruct H as [-> | ->].
  - reflexivity.
  - apply andb_false_r.
Qed.

End OpenFile.

(** C6 on the empty path and on a missing file. *)
Lemma open_file_rejected_witness :
  _open_file Sample.world "" None Sample.started = (Return tt, Sample.started) /\
  _open_file Sample.world "/src/absent.cbl" (Some Program) Sample.started =
    (Return tt, Sample.started).
Proof.
  split.
  - apply (open_file_rejected Sample.world "" None Sample.started). now left.
  - apply (open_file_rejected Sample.world "/src/absent.cbl"). right. reflexivity.
Defined.

(** ** Tool bar and error list *)

Section Toolbar.

(** A refresh writes the tool bar and nothing else. *)
Lemma update_toolbar_frame (s : Window) :
  exists t, __update_toolbar s = (Return tt, set_toolbar s t).
Proof.
  unfold __update_toolbar, bind, gets, setEnabled, setChecked, modify.
  destruct (TabManager.has_open_tabs (tab_manager s)); simpl.
  - destruct (is_CobolEditor _); simpl; [|eauto].
    destruct (bool_decide (_ = Some Program)); simpl; [eauto|].
    destruct (bool_decide (_ = Some Subprogram)); simpl; eauto.
  - eauto.
Qed.

Lemma update_toolbar_actionRun (s : Window) :
  enabled (actionRun (toolbar (snd (__update_toolbar s)))) =
  run_allowed (tab_manager s).
Proof.
  unfold run_allowed, __update_toolbar, bind, gets, setEnabled, setChecked,
    modify.
  destruct (TabManager.has_open_tabs (tab_manager s)); simpl; [|reflexivity].
  destruct (is_CobolEditor _); simpl; [|reflexivity].
  destruct (bool_decide
              (TabManager.active_tab_type (tab_manager s) = Some Program))
    eqn:E; simpl.
  - apply bool_decide_eq_true in E. rewrite E. reflexivity.
  - destruct (bool_decide (_ = Some Subprogram)); reflexivity.
Qed.

(** The half of the sentence that holds as written: a subprogram cannot
    be run. *)
Lemma run_disabled_for_subprogram (s : Window) :
  TabManager.active_tab_type (tab_manager s) = Some Subprogram ->
  enabled (actionRun (toolbar (snd (__update_toolbar s)))) = false.
Proof.
  intros H. rewrite update_toolbar_actionRun. unfold run_allowed.
  rewrite H, bool_decide_eq_true_2 by reflexivity. apply andb_false_r.
Qed.

(** C2, amended.  A refresh leaves the editors alone, and afterwards Run
    is enabled exactly when an editor is open, the active one is a COBOL
    editor and its classification is not Subprogram.  So Run is disabled
    for a subprogram, and also with no editor open and on a plain text
    editor. *)
Theorem run_enabled_after_refresh (s : Window) :
  let s' := snd (__update_toolbar s) in
  tab_manager s' = tab_manager s /\
  enabled (actionRun (toolbar s')) = run_allowed (tab_manager s).
Proof.
  cbv zeta. split.
  - destruct (update_toolbar_frame s) as [t ->]. reflexivity.
  - apply update_toolbar_actionRun.
Qed.

End Toolbar.

(** C2 as written fails: with a plain text file active the classification
    after a refresh is Text, not Subprogram, and Run is disabled. *)
Lemma run_disabled_for_text_tab :
  let s' := snd (__update_toolbar Sample.notes_open) in
  TabManager.active_tab_type (tab_manager s') = Some Text /\
  TabManager.active_tab_type (tab_manager s') <> Some Subprogram /\
  enabled (actionRun (toolbar s')) = false.
Proof. vm_compute. repeat split. discriminate. Qed.

Section ErrorList.

Variable w : World.

Lemma split_nonempty (sep : N) (s : Unicode.text) :
  Unicode.split sep s <> [].
Proof.
  destruct s as [|c s]; simpl; [discriminate|].
  destruct (N.eqb c sep); [discriminate|].
  destruct (Unicode.split sep s); discriminate.
Qed.

Lemma split_hd_cons (sep c : N) (s : Unicode.text) :
  c <> sep ->
  hd [] (Unicode.split sep (c :: s)) = c :: hd [] (Unicode.split sep s).
Proof.
  intros Hc. simpl.
  destruct (N.eqb_spec c sep); [contradiction|].
  pose proof (split_nonempty sep s).
  destruct (Unicode.split sep s); [contradiction | reflexivity].
Qed.

(** The first field of [split(':')] is the text before the first colon,
    the whole text when there is none. *)
Lemma split_hd_before_colon (item h : Unicode.text) :
  text_before_colon item h ->
  hd [] (Unicode.split Unicode.colon item) = h.
Proof.
  revert item. induction h as [|c h IH]; intros item [Hno Hitem].
  - destruct Hitem as [-> | [rest ->]]; reflexivity.
  - assert (Hc : c <> Unicode.colon).
    { intros ->. apply Hno. now left. }
    assert (Hh : ~ In Unicode.colon h).
    { intros H. apply Hno. now right. }
    destruct Hitem as [-> | [rest ->]].
    + rewrite split_hd_cons by assumption. f_equal.
      apply IH. split; auto.
    + rewrite <- app_comm_cons, split_hd_cons by assumption. f_equal.
      apply IH. split; eauto.
Qed.

Lemma on_error_double_clicked_run (item_text : Unicode.text) (s : Window) :
  __on_error_double_clicked w item_text s =
  match builtin_int w (hd [] (Unicode.split Unicode.colon item_text)) with
  | None => (Return tt, s)
  | Some n =>
      match TabManager.active_tab (tab_manager s) with
      | None => (Raise AttributeError, s)
      | Some edit => (Return tt, cursor_moved w s edit n)
      end
  end.
Proof.
  unfold __on_error_double_clicked, try_except, bind, int, gets.
  destruct (builtin_int w _) as [n|]; simpl; [|reflexivity].
  unfold TabManager.update_active, bind, gets, modify.
  destruct (TabManager.active_tab (tab_manager s)) as [edit|] eqn:E; simpl.
  - rewrite E. reflexivity.
  - reflexivity.
Qed.

(** After the move the active editor is the one it was, with the cursor
    for that line, and the other editors are as before. *)
Lemma cursor_moved_active (s : Window) (edit : Tab) (n : Z) :
  TabManager.active_tab (tab_manager s) = Some edit ->
  TabManager.active_tab (tab_manager (cursor_moved w s edit n)) =
    Some (setTextCursor edit (cursorForPosition w edit n 1)) /\
  forall i, i <> current (tab_manager s) ->
    tabs (tab_manager (cursor_moved w s edit n)) !! i =
    tabs (tab_manager s) !! i.
Proof.
  unfold TabManager.active_tab, cursor_moved. simpl. intros H. split.
  - apply list_lookup_insert_eq. eapply lookup_lt_Some, H.
  - intros i Hi. apply list_lookup_insert_ne. congruence.
Qed.

(** C8.  Let [h] be the text of the item before its first colon.  If
    [int] reads [h] as [n], the handler returns normally, the text cursor
    of the active editor is afterwards the cursor that
    [cursorForPosition] builds for line [n] and column 1 of that editor,
    and nothing else in the window has changed; if [int] rejects [h], the
    handler returns normally and the window, cursor included, is exactly
    as before. *)
Theorem double_click_moves_cursor (item_text h : Unicode.text)
    (s : Window) :
  text_before_colon item_text h ->
  (forall n edit,
     builtin_int w h = Some n ->
     TabManager.active_tab (tab_manager s) = Some edit ->
     let s' := snd (__on_error_double_clicked w item_text s) in
     fst (__on_error_double_clicked w item_text s) = Return tt /\
     textCursor <$> TabManager.active_tab (tab_manager s') =
       Some (cursorForPosition w edit n 1) /\
     s' = cursor_moved w s edit n) /\
  (builtin_int w h = None ->
   __on_error_double_clicked w item_text s = (Return tt, s)).
Proof.
  intros Hh. rewrite on_error_double_clicked_run.
  rewrite (split_hd_before_colon _ _ Hh). split.
  - intros n edit -> Hedit. rewrite Hedit. cbv zeta. simpl fst. simpl snd.
    repeat split.
    destruct (cursor_moved_active s edit n Hedit) as [-> _]. reflexivity.
  - intros ->. reflexivity.
Qed.

End ErrorList.

(** C8 on a diagnostic with a line number, on one without, and on one
    whose line number is written in full-width digits. *)
Lemma double_click_moves_cursor_witness :
  (let r := __on_error_double_clicked Sample.world
              (Unicode.of_string "12:Some error") Sample.hello_open in
   fst r = Return tt /\
   textCursor <$> TabManager.active_tab (tab_manager (snd r)) = Some 12 /\
   snd r = cursor_moved Sample.world Sample.hello_open Sample.hello_tab 12) /\
  __on_error_double_clicked Sample.world
    (Unicode.of_string "Some error") Sample.hello_open =
    (Return tt, Sample.hello_open) /\
  (let r := __on_error_double_clicked Sample.world
              (Sample.wide_12 ++ Unicode.of_string ":Some error")%list
              Sample.hello_open in
   textCursor <$> TabManager.active_tab (tab_manager (snd r)) = Some 12).
Proof.
  split; [|split].
  - refine (proj1 (double_click_moves_cursor Sample.world
                     (Unicode.of_string "12:Some error")
                     (Unicode.of_string "12") Sample.hello_open _)
                  12%Z Sample.hello_tab _ _).
    + split; [vm_compute; intuition discriminate|].
      right. now exists (Unicode.of_string "Some error").
    + reflexivity.
    + reflexivity.
  - refine (proj2 (double_click_moves_cursor Sample.world
                     (Unicode.of_string "Some error")
                     (Unicode.of_string "Some error") Sample.hello_open _)
                  _).
    + split; [vm_compute; intuition discriminate | now left].
    + reflexivity.
  - refine (proj1 (proj2 (proj1 (double_click_moves_cursor Sample.world
                     (Sample.wide_12 ++ Unicode.of_string ":Some error")%list
                     Sample.wide_12 Sample.hello_open _)
                  12%Z Sample.hello_tab _ _))).
    + split; [vm_compute; intuition discriminate|].
      right. now exists (Unicode.of_string "Some error").
    + reflexivity.
    + reflexivity.
Defined.

(** ** Frame reasoning: what a handler leaves alone *)

Section Frames.

Context {X : Type} (P : Window -> X).


Lemma preserves_ret {A} (a : A) : preserves P (ret a).
Proof. intros s. reflexivity. Qed.

Lemma preserves_raise {A} (e : exn) : preserves P (@raise A e).
Proof. intros s. reflexivity. Qed.

Lemma preserves_gets {A} (f : Window -> A) : preserves P (gets f).
Proof. intros s. reflexivity. Qed.

Lemma preserves_modify (f : Window -> Window) :
  (forall s, P (f s) = P s) -> preserves P (modify f).
Proof. intros H s. apply H. Qed.

Lemma preserves_bind {A B} (m : M A) (k : A -> M B) :
  preserves P m -> (forall a, preserves P (k a)) -> preserves P (bind m k).
Proof.
  intros Hm Hk s. unfold bind. specialize (Hm s).
  destruct (m s) as [[a|e] s']; simpl in *.
  - now rewrite Hk.
  - exact Hm.
Qed.

Lemma preserves_try_except {A} (body handler : M A) (cls : exn) :
  preserves P body -> preserves P handler ->
  preserves P (try_except body cls handler).
Proof.
  intros Hb Hh s. unfold try_except. specialize (Hb s).
  destruct (body s) as [[a|e] s']; simpl in *; [exact Hb|].
  destruct (isinstance_exn e cls); simpl; [now rewrite Hh | exact Hb].
Qed.

Lemma preserves_try_except_any {A} (body handler : M A) :
  preserves P body -> preserves P handler ->
  preserves P (try_except_any body handler).
Proof.
  intros Hb Hh s. unfold try_except_any. specialize (Hb s).
  destruct (body s) as [[a|e] s']; simpl in *; [exact Hb|].
  now rewrite Hh.
Qed.

Lemma preserves_call {A} (answer : outcome A) : preserves P (call answer).
Proof. intros s. reflexivity. Qed.

Lemma preserves_when_enabled (a : Toolbar -> Action) (m : M unit) :
  preserves P m -> preserves P (when_enabled a m).
Proof.
  intros Hm s. unfold when_enabled.
  destruct (enabled (a (toolbar s))); [apply Hm | reflexivity].
Qed.

End Frames.

Create HintDb frame.
#[local] Hint Resolve preserves_ret preserves_raise preserves_gets
  preserves_call preserves_try_except preserves_try_except_any preserves_when_enabled : frame.
#[local] Hint Extern 2 (preserves _ (bind _ _)) =>
  apply preserves_bind; [|intro] : frame.
#[local] Hint Extern 2 (preserves _ (modify _)) =>
  apply preserves_modify; intro; reflexivity : frame.
#[local] Hint Extern 1 (preserves _ (match Some _ with _ => _ end)) =>
  progress cbv beta iota : frame.
#[local] Hint Extern 1 (preserves _ (match None with _ => _ end)) =>
  progress cbv beta iota : frame.
#[local] Hint Extern 3 (preserves _ (match ?x with _ => _ end)) =>
  destruct x : frame.

Ltac frame := repeat (progress unfold setEnabled, setChecked, critical,
  appendPlainText, start, open_read, int, compile); auto 30 with frame.

(** ** The page shown *)

Section Pages.

Variable w : World.

Lemma update_toolbar_preserves {X} (P : Window -> X) :
  (forall s t, P (set_toolbar s t) = P s) -> preserves P __update_toolbar.
Proof.
  intros H s. destruct (update_toolbar_frame s) as [t ->]. apply H.
Qed.

Lemma detect_file_type_page (filename : string) :
  preserves stackedWidget (detect_file_type w filename).
Proof. unfold detect_file_type. frame. Qed.

Lemma detect_encoding_page (filename : string) :
  preserves stackedWidget (detect_encoding w filename).
Proof. unfold detect_encoding. frame. Qed.

Lemma update_active_view (f : Tab -> Tab) :
  preserves view (TabManager.update_active f).
Proof.
  intros s. unfold TabManager.update_active, bind, gets, modify.
  simpl. destruct (TabManager.active_tab (tab_manager s)); [|reflexivity].
  unfold view, TabManager.has_open_tabs. simpl.
  destruct (tabs (tab_manager s)), (current (tab_manager s)); reflexivity.
Qed.

Lemma update_active_page (f : Tab -> Tab) :
  preserves stackedWidget (TabManager.update_active f).
Proof. intros s. exact (f_equal fst (update_active_view f s)). Qed.

Lemma update_toolbar_view : preserves view __update_toolbar.
Proof. now apply update_toolbar_preserves. Qed.

Lemma update_toolbar_page : preserves stackedWidget __update_toolbar.
Proof. now apply update_toolbar_preserves. Qed.

Lemma update_toolbar_tab_manager : preserves tab_manager __update_toolbar.
Proof. now apply update_toolbar_preserves. Qed.

#[local] Hint Resolve detect_file_type_page detect_encoding_page update_active_view
  update_active_page update_toolbar_view update_toolbar_page
  update_toolbar_tab_manager : frame.

(** Once past its guard, [_open_file] shows the editor page, whatever
    happens next. *)
Lemma open_file_page (filename : string) (filetype : option FileType)
    (s : Window) :
  filename <> EmptyString -> os_path_exists w filename = true ->
  stackedWidget (snd (_open_file w filename filetype s)) = PAGE_EDITOR.
Proof.
  intros Hne Hex. unfold _open_file. rewrite Hex.
  destruct (String.eqb_spec filename EmptyString); [contradiction|].
  simpl. unfold bind at 1. simpl.
  match goal with |- stackedWidget (snd (?m ?s1)) = _ =>
    assert (H : preserves stackedWidget m); [|now rewrite H] end.
  unfold open_tab, active_tab_file_dir, TabManager.active_tab_filename.
  frame.
Qed.

Lemma events_view (e : event) :
  match e with
  | OpenFile _ _ | CloseTab _ => True
  | _ => preserves view (handle w e)
  end.
Proof.
  destruct e as [| | [] | | | | | |]; simpl; trivial;
    unfold __change_current_file_type, on_actionRun_triggered,
      on_runner_finished, __on_run_error, __on_error_double_clicked,
      on_actionCompile_triggered, on_actionSave_triggered,
      TabManager.active_tab_filename; frame.
Qed.

Lemma close_tab_run (i : nat) (s : Window) :
  let tm' := {| tabs := delete i (tabs (tab_manager s));
                current := Nat.pred (length (delete i (tabs (tab_manager s)))) |} in
  close_tab i s =
  match TabManager.active_tab tm' with
  | Some t =>
      __on_current_tab_changed (Some t) (tagFilename t) (set_tab_manager s tm')
  | None =>
      __on_current_tab_changed None EmptyString (set_tab_manager s tm')
  end.
Proof.
  cbv zeta. unfold close_tab, bind, gets, modify. simpl.
  destruct (TabManager.active_tab _); reflexivity.
Qed.

Lemma on_current_tab_changed_tab_manager (t : option Tab) (txt : string) :
  preserves tab_manager (__on_current_tab_changed t txt).
Proof. unfold __on_current_tab_changed. destruct t; frame. Qed.

Lemma on_current_tab_changed_page (t : Tab) (txt : string) :
  preserves stackedWidget (__on_current_tab_changed (Some t) txt).
Proof. unfold __on_current_tab_changed. frame. Qed.

Lemma close_tab_view (i : nat) (s : Window) :
  let s' := snd (close_tab i s) in
  TabManager.has_open_tabs (tab_manager s') = true ->
  TabManager.has_open_tabs (tab_manager s) = true /\
  stackedWidget s' = stackedWidget s.
Proof.
  cbv zeta. rewrite close_tab_run. cbv zeta.
  set (tm' := {| tabs := _; current := _ |}).
  destruct (TabManager.active_tab tm') as [t|] eqn:E;
    rewrite on_current_tab_changed_tab_manager; intros Hopen.
  - split.
    + unfold TabManager.has_open_tabs in *.
      subst tm'. simpl in Hopen.
      destruct (tabs (tab_manager s)); [|reflexivity].
      destruct i; discriminate Hopen.
    + now rewrite on_current_tab_changed_page.
  - exfalso.
    unfold TabManager.active_tab, TabManager.has_open_tabs in *.
    simpl in *. apply lookup_ge_None in E.
    destruct (delete i (tabs (tab_manager s))); [discriminate|].
    simpl in E. lia.
Qed.

(** Whenever an editor is open, the editor page is the one shown. *)
Lemma open_tabs_editor_page (s : Window) :
  reachable w s ->
  TabManager.has_open_tabs (tab_manager s) = true ->
  stackedWidget s = PAGE_EDITOR.
Proof.
  induction 1 as [ui | s e Hs IH].
  - intros H. exfalso. revert H.
    assert (Hv : tab_manager (snd (__init__ ui)) = {| tabs := []; current := 0 |}).
    { reflexivity. }
    rewrite Hv. discriminate.
  - unfold step. pose proof (events_view e) as He.
    destruct e as [filename filetype|i|[]| | | | | |];
      try (intros H;
           pose proof (f_equal fst (He s)) as Hp;
           pose proof (f_equal snd (He s)) as Ht;
           exact (eq_trans Hp (IH (eq_trans (eq_sym Ht) H)))).
    + simpl. destruct (String.eqb_spec filename EmptyString) as [->|Hne].
      { rewrite open_file_guard by reflexivity. exact IH. }
      destruct (os_path_exists w filename) eqn:Hex.
      * intros _. now apply open_file_page.
      * rewrite open_file_guard by (rewrite Hex; apply andb_false_r).
        exact IH.
    + simpl. intros H. apply close_tab_view in H as [Ht Hp].
      rewrite Hp. now apply IH.
Qed.

End Pages.

(** ** The thread pool *)

Section Pool.

Variable w : World.

Lemma update_toolbar_capacity : preserves capacity __update_toolbar.
Proof. now apply update_toolbar_preserves. Qed.

Lemma update_active_capacity (f : Tab -> Tab) :
  preserves capacity (TabManager.update_active f).
Proof. unfold TabManager.update_active. frame. Qed.

#[local] Hint Resolve update_toolbar_capacity update_active_capacity : frame.

Lemma handle_capacity (e : event) : preserves capacity (handle w e).
Proof.
  destruct e as [| |[]| | | | | |]; simpl;
    unfold _open_file, detect_file_type, detect_encoding, open_tab,
      active_tab_file_dir, close_tab, __on_current_tab_changed,
      __change_current_file_type, on_actionRun_triggered, on_runner_finished,
      __on_run_error, __on_error_double_clicked,
      on_actionCompile_triggered, on_actionSave_triggered,
      TabManager.active_tab_filename;
    frame.
Qed.

(** The constructor sets the capacity of the pool to one and no handler
    changes it. *)
Lemma pool_capacity_one (s : Window) : reachable w s -> capacity s = 1.
Proof.
  induction 1 as [ui | s e Hs IH].
  - reflexivity.
  - unfold step. now rewrite handle_capacity.
Qed.

End Pool.

Section DecodeFailure.

Variable w : World.

Lemma detect_file_type_returns (filename : string) (s : Window) :
  exists type log,
    detect_file_type w filename s = (Return type, set_opened s log).
Proof.
  destruct (String.eqb_spec (QFileInfo.suffix filename) "cbl") as [H|H].
  - rewrite (detect_file_type_cbl _ _ _ H). eauto.
  - rewrite (detect_file_type_other _ _ _ H). exists Text, (opened s).
    now destruct s.
Qed.

(** What [_open_file] leaves behind when the tab manager cannot decode
    the file: the editor page, one more dialog with a fixed text, and
    the editors as they were. *)
Lemma open_file_decode_failure (filename : string)
    (filetype : option FileType) (s : Window) :
  filename <> EmptyString -> os_path_exists w filename = true ->
  (forall t e, open_tab_editor w (os_path_normpath w filename) t e = None) ->
  exists log,
    _open_file w filename filetype s =
    (Return tt,
     set_dialogs (set_opened (set_stackedWidget s PAGE_EDITOR) log)
       (dialogs s ++
        [{| kind := Critical; title := "Bad encoding";
            text := bad_encoding_text |}])).
Proof.
  intros Hne Hex Hdec. unfold _open_file. rewrite Hex.
  destruct (String.eqb_spec filename EmptyString); [contradiction|].
  simpl. unfold bind at 1, modify. simpl.
  set (s1 := set_stackedWidget s PAGE_EDITOR).
  set (fn := os_path_normpath w filename) in *.
  assert (Htype : exists type log,
    match filetype with
    | Some t => if filetype_truthy w t then ret t else detect_file_type w fn
    | None => detect_file_type w fn
    end s1 = (Return type, set_opened s1 log)).
  { destruct filetype as [t|]; [destruct (filetype_truthy w t)|];
      try apply detect_file_type_returns.
    exists t, (opened s1). reflexivity. }
  destruct Htype as (type & log & Htype).
  unfold try_except, bind at 1. rewrite Htype.
  unfold bind at 1. rewrite detect_encoding_run.
  unfold bind at 1, open_tab. rewrite Hdec. simpl.
  eexists. reflexivity.
Qed.

End DecodeFailure.

Section RunAction.

(** The Run handler never writes the tool bar. *)
Lemma on_actionRun_triggered_toolbar :
  preserves toolbar on_actionRun_triggered.
Proof.
  unfold on_actionRun_triggered, TabManager.active_tab_filename. frame.
Qed.

(** With an active editor, the handler queues one more runner. *)
Lemma on_actionRun_triggered_queues (s : Window) (edit : Tab) :
  TabManager.active_tab (tab_manager s) = Some edit ->
  runners (threadPool (snd (on_actionRun_triggered s))) =
  (runners (threadPool s) ++ [{| runner_filename := tagFilename edit |}])%list.
Proof.
  intros H.
  unfold on_actionRun_triggered, TabManager.active_tab_filename, start,
    bind, gets, modify.
  simpl. rewrite H. reflexivity.
Qed.

End RunAction.

(** ** Compiling, and the runners in the pool *)

Section Compile.

Variable w : World.

(** The Compile handler hands nothing to the thread pool. *)
Lemma on_actionCompile_triggered_pool :
  preserves threadPool (on_actionCompile_triggered w).
Proof.
  unfold on_actionCompile_triggered, on_actionSave_triggered,
    TabManager.active_tab_filename.
  frame.
Qed.

(** Neither Run nor Compile changes whether Compile can be triggered. *)
Lemma on_actionCompile_triggered_toolbar :
  preserves toolbar (on_actionCompile_triggered w).
Proof.
  unfold on_actionCompile_triggered, on_actionSave_triggered,
    TabManager.active_tab_filename.
  frame.
Qed.

(** With an active editor that pcef saves, the handler calls the compiler
    on the file of that editor before it returns, whatever the pool is
    executing. *)
Lemma on_actionCompile_triggered_compiles (s : Window) (edit : Tab) :
  TabManager.active_tab (tab_manager s) = Some edit ->
  saveFileFromEditor w edit (tagEncoding edit) = Return tt ->
  compiled (snd (on_actionCompile_triggered w s)) =
  (compiled s ++ [(tagFilename edit, Some (fileType edit))])%list.
Proof.
  intros Hedit Hsave.
  unfold on_actionCompile_triggered, on_actionSave_triggered, compile,
    TabManager.active_tab_filename, TabManager.active_tab_type,
    try_except, call, bind, gets, modify.
  simpl. rewrite Hedit, Hsave. simpl. unfold ret.
  repeat (rewrite Hedit; simpl).
  match goal with |- context [cobol_compile w ?f ?t] =>
    destruct (cobol_compile w f t) as [result|e] end; simpl;
    [destruct (errors_manager edit)|]; reflexivity.
Qed.

Lemma executing_capacity (p : ThreadPool) :
  length (executing p) <= maxThreadCount p.
Proof. unfold executing. rewrite length_take. lia. Qed.

(** In every reachable state the pool executes one runner at most. *)
Lemma one_runner_executes (s : Window) :
  reachable w s -> length (executing (threadPool s)) <= 1.
Proof.
  intros H. rewrite <- (pool_capacity_one w s H). apply executing_capacity.
Qed.

(** A runner that Run starts while another has not finished waits behind
    it. *)
Lemma second_runner_waits (s : Window) (edit : Tab) (r : Runner)
    (rs : list Runner) :
  capacity s = 1 ->
  runners (threadPool s) = r :: rs ->
  TabManager.active_tab (tab_manager s) = Some edit ->
  let s' := snd (on_actionRun_triggered s) in
  executing (threadPool s') = [r] /\
  waiting (threadPool s') =
    (rs ++ [{| runner_filename := tagFilename edit |}])%list.
Proof.
  intros Hcap Hrs Hedit. cbv zeta.
  unfold executing, waiting.
  rewrite (on_actionRun_triggered_queues s edit Hedit), Hrs.
  assert (Hc : maxThreadCount (threadPool (snd (on_actionRun_triggered s))) = 1).
  { unfold on_actionRun_triggered, TabManager.active_tab_filename, start,
      bind, gets, modify.
    simpl. rewrite Hedit. exact Hcap. }
  rewrite Hc. split; reflexivity.
Qed.

(** It is the next to execute, once the first one has finished. *)
Lemma waiting_runner_starts (s : Window) (value : bool) (r r' : Runner)
    (rs : list Runner) :
  capacity s = 1 ->
  runners (threadPool s) = r :: r' :: rs ->
  executing (threadPool s) = [r] /\
  executing (threadPool (snd (on_runner_finished value s))) = [r'].
Proof.
  unfold capacity, executing. intros Hcap Hrs. rewrite Hcap, Hrs.
  split; [reflexivity|].
  unfold on_runner_finished, setEnabled, bind, modify. simpl.
  rewrite Hcap, Hrs. reflexivity.
Qed.

End Compile.

(** ** Three runs of the sample installation *)

(** C3.  The page is not always the one the open editors call for: from
    the freshly built window, opening a file that the tab manager cannot
    decode reaches a state that shows the editor page with no editor
    open. *)
Theorem editor_page_without_tab :
  let s := step Sample.world (OpenFile "/src/latin1.cbl" None) Sample.started in
  reachable Sample.world s /\
  TabManager.has_open_tabs (tab_manager Sample.started) = false /\
  stackedWidget Sample.started = PAGE_HOME /\
  TabManager.has_open_tabs (tab_manager s) = false /\
  stackedWidget s = PAGE_EDITOR.
Proof.
  cbv zeta. split.
  - apply reachable_step, reachable_init.
  - repeat split.
Qed.

(** C4.  A decode failure on open, from the freshly built window: one
    critical dialog is shown and no editor is registered, but the text of
    the dialog still carries its placeholder and does not contain the
    path or the name of the file, and the page has changed from Home to
    Editor. *)
Theorem decode_failure_dialog :
  let s := Sample.started in
  let s' := snd (_open_file Sample.world "/src/latin1.cbl" None s) in
  dialogs s' = [{| kind := Critical; title := "Bad encoding";
                   text := bad_encoding_text |}] /\
  Str.contains "%s" bad_encoding_text = true /\
  Str.contains "/src/latin1.cbl" bad_encoding_text = false /\
  Str.contains "latin1" bad_encoding_text = false /\
  tab_manager s' = tab_manager s /\
  stackedWidget s = PAGE_HOME /\
  stackedWidget s' = PAGE_EDITOR.
Proof. vm_compute. repeat split. Qed.

(** C5.  Triggering Run on an open program queues a runner and leaves the
    Run action enabled, so a second trigger is accepted before the first
    runner has finished and queues a second runner. *)
Theorem run_stays_enabled :
  let queued := {| runner_filename := "/src/hello.cbl" |} in
  let s1 := step Sample.world TriggerRun Sample.hello_open in
  let s2 := step Sample.world TriggerRun s1 in
  enabled (actionRun (toolbar Sample.hello_open)) = true /\
  runners (threadPool s1) = [queued] /\
  enabled (actionRun (toolbar s1)) = true /\
  runners (threadPool s2) = [queued; queued].
Proof. vm_compute. repeat split. Qed.

(** C9.  Not every compile-or-run task goes through the pool.  With one
    program open, Run hands a runner to the pool, which executes it;
    Compile is still enabled, and triggering it before the runner has
    finished calls the compiler there and then, in the handler, while the
    pool is still executing the runner. *)
Theorem compile_during_run :
  let runner := {| runner_filename := "/src/hello.cbl" |} in
  let s1 := step Sample.world TriggerRun Sample.hello_open in
  let s2 := step Sample.world TriggerCompile s1 in
  reachable Sample.world s2 /\
  capacity s1 = 1 /\
  executing (threadPool s1) = [runner] /\
  enabled (actionCompile (toolbar s1)) = true /\
  compiled s1 = [] /\
  compiled s2 = [("/src/hello.cbl", Some Program)] /\
  executing (threadPool s2) = [runner].
Proof.
  cbv zeta. split.
  - do 3 apply reachable_step. apply reachable_init.
  - vm_compute. repeat split.
Qed.
